(** * sequelize-transactional-method: the transactional method generator

    A shallow embedding of [src/main.js].  The module exports one function,
    [sequelizeTransactionalMethodGenerator], which checks its two arguments
    and returns an async function.  That function sniffs a Sequelize
    instance and a Transaction out of its argument list, opens a
    transaction when none was given, runs the handler, and commits, rolls
    back or hands over to the error handler.

    JavaScript values are modelled by the inductive type [value]; the two
    tests [isSequelize] and [isTransaction] read [v.constructor.name] and
    throw a TypeError when there is no constructor to read it from; the
    collaborators (the database, the transactions and the two user
    functions) are arbitrary state transformers over an abstract world, and
    every call the wrapper makes to one of them is recorded in a trace. *)

From Stdlib Require Import List String Bool ZArith PrimFloat.
Import ListNotations.
Local Open Scope string_scope.

(** ** JavaScript values *)

Module JS.

(** What reading [v.constructor.name] comes to. *)
Inductive constructor_reading : Type :=
| NoConstructor                     (* v.constructor is null or undefined *)
| ConstructorNamed (name : string)  (* v.constructor.name is this string *)
| ConstructorUnnamed.               (* v.constructor.name is no string *)

(** An object is known by its identity.  The wrapper looks at whether it
    inherits from [Object.prototype] and from [Function.prototype], at what
    [typeof] says of it, and at the name of its constructor.  Functions are
    objects like the others. *)
Record object : Type := Obj {
  ref : nat;
  callable : bool;
  inherits_Object : bool;
  inherits_Function : bool;
  constructor_name : constructor_reading
}.

Inductive value : Type :=
| VUndefined
| VNull
| VBoolean (b : bool)
| VNumber (x : float)
| VBigInt (n : Z)
| VString (s : string)
| VSymbol (id : nat)
| VObject (o : object).

(** An ordinary function. *)
Definition VFunction (id : nat) : value :=
  VObject (Obj id true true true (ConstructorNamed "Function")).

Definition constructor_reading_eqb (a b : constructor_reading) : bool :=
  match a, b with
  | NoConstructor, NoConstructor => true
  | ConstructorNamed x, ConstructorNamed y => String.eqb x y
  | ConstructorUnnamed, ConstructorUnnamed => true
  | _, _ => false
  end.

Definition object_eqb (a b : object) : bool :=
  Nat.eqb (ref a) (ref b)
  && Bool.eqb (callable a) (callable b)
  && Bool.eqb (inherits_Object a) (inherits_Object b)
  && Bool.eqb (inherits_Function a) (inherits_Function b)
  && constructor_reading_eqb (constructor_name a) (constructor_name b).

(** [a === b].  Numbers compare as IEEE doubles, so [NaN] differs from
    itself; objects and symbols compare by identity. *)
Definition strict_eq (a b : value) : bool :=
  match a, b with
  | VUndefined, VUndefined => true
  | VNull, VNull => true
  | VBoolean x, VBoolean y => Bool.eqb x y
  | VNumber x, VNumber y => PrimFloat.eqb x y
  | VBigInt x, VBigInt y => Z.eqb x y
  | VString x, VString y => String.eqb x y
  | VSymbol x, VSymbol y => Nat.eqb x y
  | VObject x, VObject y => object_eqb x y
  | _, _ => false
  end.

(** [a !== b] *)
Definition strict_neq (a b : value) : bool := negb (strict_eq a b).

(** The boolean a value converts to in a condition. *)
Definition truthy (v : value) : bool :=
  match v with
  | VUndefined | VNull => false
  | VBoolean b => b
  | VNumber x => negb (PrimFloat.eqb x 0%float) && PrimFloat.eqb x x
  | VBigInt n => negb (Z.eqb n 0)
  | VString s => negb (String.eqb s "")
  | VSymbol _ | VObject _ => true
  end.

(** [typeof v] *)
Definition typeof (v : value) : string :=
  match v with
  | VUndefined => "undefined"
  | VNull => "object"
  | VBoolean _ => "boolean"
  | VNumber _ => "number"
  | VBigInt _ => "bigint"
  | VString _ => "string"
  | VSymbol _ => "symbol"
  | VObject o => if callable o then "function" else "object"
  end.

(** [v instanceof Object]: false of every primitive. *)
Definition instanceof_Object (v : value) : bool :=
  match v with
  | VObject o => inherits_Object o
  | _ => false
  end.

(** [v instanceof Function] *)
Definition instanceof_Function (v : value) : bool :=
  match v with
  | VObject o => inherits_Function o
  | _ => false
  end.

(** An expression either yields a value or makes the engine throw a
    TypeError, as reading a property of [null] or [undefined] does. *)
Inductive checked (A : Type) : Type :=
| Yields (a : A)
| TypeError.
Arguments Yields {A} a.
Arguments TypeError {A}.

(** [arr.find(p)]: the first element that satisfies [p], or [undefined].
    The elements are tested in order up to that one, and a test that throws
    ends the search. *)
Fixpoint find (p : value -> checked bool) (arr : list value) : checked value :=
  match arr with
  | [] => Yields VUndefined
  | v :: rest =>
      match p v with
      | TypeError => TypeError
      | Yields true => Yields v
      | Yields false => find p rest
      end
  end.

(** [arr[i]]: reading past the end gives [undefined]. *)
Definition index (arr : list value) (i : nat) : value :=
  nth i arr VUndefined.

End JS.
Import JS.

(** ** Collaborators, effects and traces *)

(** How an awaited call ends: it returns a value or throws one (a rejected
    promise and a synchronous [throw] are the same thing to the awaiting
    async function). *)
Inductive outcome (A : Type) : Type :=
| Returned (a : A)
| Threw (e : value).
Arguments Returned {A} a.
Arguments Threw {A} e.

(** The calls the wrapper makes to its collaborators. *)
Inductive event : Type :=
| EvTransaction (db : value)               (* db.transaction() *)
| EvCall (f : value) (args : list value)   (* f(...args) *)
| EvCommit (tx : value)                    (* tx.commit() *)
| EvRollback (tx : value).                 (* tx.rollback() *)

(** The collaborators are whatever the caller brings: each operation is an
    arbitrary function of the world it runs in, and may throw.
    [db_transaction] is [await db.transaction()]: it resolves to an object,
    whatever its class, or throws.  [call] is [await f(...args)], [commit]
    and [rollback] are [await tx.commit()] and [await tx.rollback()], and
    [finished] reads the property of that name. *)
Record Collaborators (World : Type) : Type := {
  db_transaction : value -> World -> outcome object * World;
  call : value -> list value -> World -> outcome value * World;
  finished : value -> World -> value;
  commit : value -> World -> outcome value * World;
  rollback : value -> World -> outcome value * World
}.
Arguments db_transaction {World} _ _ _.
Arguments call {World} _ _ _ _.
Arguments finished {World} _ _ _.
Arguments commit {World} _ _ _.
Arguments rollback {World} _ _ _.

(** How a call of the generated async function settles.  The errors the
    module builds itself with [new Error(message)], and the TypeError the
    engine throws inside its two tests, are kept apart from the values it
    merely passes on. *)
Inductive settled : Type :=
| Resolved (v : value)
| Rejected (e : value)
| RejectedNewError (message : string)
| RejectedTypeError.

Record state (World : Type) : Type := St {
  world : World;
  trace : list event
}.
Arguments St {World} _ _.
Arguments world {World} _.
Arguments trace {World} _.

(** ** A state and exception monad for the body of the async function *)

Module Effects.
Section Monad.
Context {World : Type}.

Definition M (A : Type) : Type := state World -> outcome A * state World.

Definition ret {A} (a : A) : M A := fun s => (Returned a, s).

Definition throw {A} (e : value) : M A := fun s => (Threw e, s).

Definition bind {A B} (m : M A) (k : A -> M B) : M B :=
  fun s =>
    match m s with
    | (Returned a, s') => k a s'
    | (Threw e, s') => (Threw e, s')
    end.

(** [try { body } catch (e) { handler }] *)
Definition try_catch {A} (body : M A) (handler : value -> M A) : M A :=
  fun s =>
    match body s with
    | (Returned a, s') => (Returned a, s')
    | (Threw e, s') => handler e s'
    end.

(** [await op]: the call is logged, then the collaborator runs. *)
Definition await {A} (ev : event) (op : World -> outcome A * World) : M A :=
  fun s =>
    let (r, w) := op (world s) in
    (r, St w (trace s ++ [ev])).

(** A property read. *)
Definition read {A} (f : World -> A) : M A :=
  fun s => (Returned (f (world s)), s).

Definition settle (r : outcome value * state World) : settled * state World :=
  match r with
  | (Returned v, s) => (Resolved v, s)
  | (Threw e, s) => (Rejected e, s)
  end.
End Monad.
End Effects.
Import Effects.

Declare Scope js_scope.
Delimit Scope js_scope with js.
Notation "x <- m ;; k" := (bind m (fun x => k))
  (at level 61, m at next level, right associativity) : js_scope.
Notation "m ;; k" := (bind m (fun _ => k))
  (at level 61, right associativity) : js_scope.
Local Open Scope js_scope.

(** ** The module *)

(** [v.constructor.name === name], for a [v] that is an instance of
    [Object]: reading [name] off a constructor that is [null] or
    [undefined] throws. *)
Definition constructor_is (name : string) (v : value) : checked bool :=
  match v with
  | VObject o =>
      match constructor_name o with
      | NoConstructor => TypeError
      | ConstructorNamed n => Yields (String.eqb n name)
      | ConstructorUnnamed => Yields false
      end
  | _ => Yields false
  end.

(** [isSequelize]: [(v instanceof Object) && (v.constructor.name ===
    'Sequelize')].  The right-hand side is only evaluated for an instance
    of [Object]. *)
Definition isSequelize (v : value) : checked bool :=
  if instanceof_Object v then constructor_is "Sequelize" v else Yields false.

(** [isTransaction]: the same test for the name ['Transaction']. *)
Definition isTransaction (v : value) : checked bool :=
  if instanceof_Object v then constructor_is "Transaction" v else Yields false.

(** What a call of the generator evaluates to. *)
Inductive construction (World : Type) : Type :=
| ThrowsNewError (message : string)
| ReturnsMethod (method : list value -> state World -> settled * state World).
Arguments ThrowsNewError {World} message.
Arguments ReturnsMethod {World} method.

Section Generator.
Context {World : Type} (env : Collaborators World).

(** [pretty] is [util.inspect(v, false, 2, false)], a function of Node's
    standard library: it is taken as given. *)
Variable pretty : value -> string.

Definition handler_message (handler : value) : string :=
  "Expected handler to be a function, but instead received: ("
    ++ typeof handler ++ ") " ++ pretty handler.

Definition errorHandler_message (errorHandler : value) : string :=
  "Expected the error handler to be a function, but instead received: ("
    ++ typeof errorHandler ++ ") " ++ pretty errorHandler.

Definition first_parameter_message (params : list value) : string :=
  "Expected the first parameter to be a Sequelize instance, but instead received: ("
    ++ typeof (index params 0) ++ ") " ++ pretty (index params 0).

(** [transaction || await db.transaction()] *)
Definition acquire (db transaction : value) : M value :=
  if truthy transaction then ret transaction
  else
    created <- await (EvTransaction db) (db_transaction env db) ;;
    ret (VObject created).

(** [params.filter(p => (p !== db) && (p !== handlerTransaction))] *)
Definition handlerParams (params : list value) (db handlerTransaction : value)
  : list value :=
  filter (fun p => strict_neq p db && strict_neq p handlerTransaction) params.

(** The [try] block. *)
Definition attempt (handler db transaction handlerTransaction : value)
    (params : list value) : M value :=
  (* const handlerRes = await handler(db, handlerTransaction, ...handlerParams); *)
  handlerRes <- await
      (EvCall handler (db :: handlerTransaction :: handlerParams params db handlerTransaction))
      (call env handler (db :: handlerTransaction :: handlerParams params db handlerTransaction)) ;;
  (* if (!transaction && !handlerTransaction.finished) await handlerTransaction.commit(); *)
  uncommitted <-
    (if negb (truthy transaction)
     then flag <- read (finished env handlerTransaction) ;; ret (negb (truthy flag))
     else ret false) ;;
  (if uncommitted : bool
   then await (EvCommit handlerTransaction) (commit env handlerTransaction) ;; ret tt
   else ret tt) ;;
  (* return handlerRes; *)
  ret handlerRes.

(** The [catch (e)] block. *)
Definition recover (errorHandler db transaction handlerTransaction e : value)
  : M value :=
  if truthy errorHandler then
    (* return await errorHandler(e, db, handlerTransaction, transaction); *)
    await (EvCall errorHandler [e; db; handlerTransaction; transaction])
          (call env errorHandler [e; db; handlerTransaction; transaction])
  else
    (* else if (!transaction) await handlerTransaction.rollback();  throw e; *)
    (if negb (truthy transaction)
     then await (EvRollback handlerTransaction) (rollback env handlerTransaction) ;; ret tt
     else ret tt) ;;
    throw e.

(** The async function the generator returns, called with [...params].
    The two searches come first and are outside the [try] block: a
    TypeError of one of the tests rejects the call as it is. *)
Definition transactionalMethod (handler errorHandler : value) (params : list value)
  : state World -> settled * state World :=
  match JS.find isSequelize params with
  | TypeError => fun s => (RejectedTypeError, s)
  | Yields db =>
      match JS.find isTransaction params with
      | TypeError => fun s => (RejectedTypeError, s)
      | Yields transaction =>
          if negb (truthy db) || strict_neq (index params 0) db then
            fun s => (RejectedNewError (first_parameter_message params), s)
          else
            fun s =>
              settle
                ((handlerTransaction <- acquire db transaction ;;
                  try_catch
                    (attempt handler db transaction handlerTransaction params)
                    (recover errorHandler db transaction handlerTransaction)) s)
      end
  end.

(** The exported function.  It runs in the same state as everything else,
    so that what it leaves untouched can be stated. *)
Definition sequelizeTransactionalMethodGenerator (handler errorHandler : value)
  : state World -> construction World * state World :=
  fun s =>
    if negb (instanceof_Function handler) then
      (ThrowsNewError (handler_message handler), s)
    else if negb (String.eqb (typeof errorHandler) "undefined")
            && negb (instanceof_Function errorHandler) then
      (ThrowsNewError (errorHandler_message errorHandler), s)
    else
      (ReturnsMethod (transactionalMethod handler errorHandler), s).

End Generator.

Arguments handlerParams : simpl never.

(** ** The error handler of the README *)

(** The second example of the README passes this error handler:
    [async (err, db, transaction, originalTransaction) => {
       if (!originalTransaction && !transaction.finished) {
         await transaction.rollback();
       }
     }].
    It has no [return]: when it does not throw, it resolves to
    [undefined]. *)
Definition readme_errorHandler {World : Type} (env : Collaborators World)
    (err db transaction originalTransaction : value)
  : World -> outcome value * World :=
  fun w =>
    if negb (truthy originalTransaction)
       && negb (truthy (finished env transaction w))
    then
      match rollback env transaction w with
      | (Returned _, w') => (Returned VUndefined, w')
      | (Threw e, w') => (Threw e, w')
      end
    else (Returned VUndefined, w).

(** ** Reading a trace *)

Definition is_call (ev : event) : bool :=
  match ev with EvCall _ _ => true | _ => false end.

(** The calls made between two states of one run. *)
Definition events_since {World : Type} (s s' : state World) : list event :=
  skipn (List.length (trace s)) (trace s').

Definition is_creation (ev : event) : bool :=
  match ev with EvTransaction _ => true | _ => false end.

Definition is_commit (ev : event) : bool :=
  match ev with EvCommit _ => true | _ => false end.

Definition is_rollback (ev : event) : bool :=
  match ev with EvRollback _ => true | _ => false end.

(** The remaining parameters in the words of the specification: every
    argument but the database handle and the working transaction, in the
    order they were given. *)
Inductive Remaining (db wt : value) : list value -> list value -> Prop :=
| Remaining_nil : Remaining db wt [] []
| Remaining_db p ps rest :
    strict_eq p db = true -> Remaining db wt ps rest -> Remaining db wt (p :: ps) rest
| Remaining_wt p ps rest :
    strict_eq p wt = true -> Remaining db wt ps rest -> Remaining db wt (p :: ps) rest
| Remaining_other p ps rest :
    strict_eq p db = false -> strict_eq p wt = false ->
    Remaining db wt ps rest -> Remaining db wt (p :: ps) (p :: rest).

(** What it is for the handler to be called with the arguments [hargs] in
    the state [s1], for a run that ends as [run]: whatever the handler
    answers to exactly these arguments in the world of [s1] decides how the
    run goes on from the world the handler leaves.  [transaction] is the
    transaction found among the parameters and [wt] the working
    transaction.  (A commit or a rollback that throws is left out.) *)
Definition HandlerCalledWith {World : Type} (env : Collaborators World)
    (handler errorHandler db transaction wt : value) (hargs : list value)
    (s1 : state World) (run : settled * state World) : Prop :=
  let called := (trace s1 ++ [EvCall handler hargs])%list in
  (forall v w2,
      call env handler hargs (world s1) = (Returned v, w2) ->
      (truthy transaction = true \/ truthy (finished env wt w2) = true ->
       run = (Resolved v, St w2 called))
      /\ (truthy transaction = false -> truthy (finished env wt w2) = false ->
          forall r w3, commit env wt w2 = (Returned r, w3) ->
          run = (Resolved v, St w3 (called ++ [EvCommit wt]))))
  /\ (forall e w2,
      call env handler hargs (world s1) = (Threw e, w2) ->
      (truthy errorHandler = true ->
       run = (match fst (call env errorHandler [e; db; wt; transaction] w2) with
              | Returned v' => Resolved v'
              | Threw e' => Rejected e'
              end,
              St (snd (call env errorHandler [e; db; wt; transaction] w2))
                 (called ++ [EvCall errorHandler [e; db; wt; transaction]])))
      /\ (truthy errorHandler = false -> truthy transaction = true ->
          run = (Rejected e, St w2 called))
      /\ (truthy errorHandler = false -> truthy transaction = false ->
          forall r w3, rollback env wt w2 = (Returned r, w3) ->
          run = (Rejected e, St w3 (called ++ [EvRollback wt])))).

(** ** A scripted database for concrete runs *)

Module Mock.

(** What the collaborators do in one run. *)
Record script : Type := Script {
  creation_fails : bool;
  handler_throws : bool;
  handler_finishes : bool;
  commit_fails : bool;
  rollback_fails : bool;
  errorHandler_throws : bool
}.

Definition happy : script := Script false false false false false false.
Definition creation_breaks : script := Script true false false false false false.
Definition handler_breaks : script := Script false true false false false false.
Definition handler_settles : script := Script false false true false false false.
Definition commit_breaks : script := Script false false false true false false.
Definition rollback_breaks : script := Script false true false false true false.
Definition errorHandler_breaks : script := Script false true false false false true.

(** The world is the [finished] property of the one transaction in play:
    unset, ['commit'] or ['rollback'], as Sequelize sets it. *)
Definition World : Type := option string.

(** An instance of the class of that name. *)
Definition instance (id : nat) (class : string) : object :=
  Obj id false true false (ConstructorNamed class).

Definition db : value := VObject (instance 1 "Sequelize").
Definition created : object := instance 2 "Transaction".
Definition supplied : value := VObject (instance 3 "Transaction").
Definition handler : value := VFunction 10.
Definition errorHandler : value := VFunction 11.

Definition connection_refused : value := VObject (instance 20 "ConnectionRefusedError").
Definition boom : value := VObject (instance 21 "Error").
Definition commit_failed : value := VObject (instance 22 "DatabaseError").
Definition rollback_failed : value := VObject (instance 23 "DatabaseError").
Definition worse : value := VObject (instance 24 "Error").
Definition not_a_function : value := VObject (instance 25 "TypeError").

(** The object [JSON.parse('{"constructor":null}')]: an instance of
    [Object] whose [constructor] property is [null]. *)
Definition null_constructor : value := VObject (Obj 30 false true false NoConstructor).

Definition env (sc : script) : Collaborators World := {|
  db_transaction := fun _ w =>
    if creation_fails sc then (Threw connection_refused, w)
    else (Returned created, None);
  call := fun f _ w =>
    if strict_eq f handler then
      if handler_throws sc then (Threw boom, w)
      else (Returned (VString "ok"),
            if handler_finishes sc then Some "rollback" else w)
    else if strict_eq f errorHandler then
      if errorHandler_throws sc then (Threw worse, w)
      else (Returned (VString "recovered"), w)
    else (Threw not_a_function, w);
  finished := fun _ w =>
    match w with
    | Some how => VString how
    | None => VUndefined
    end;
  commit := fun _ w =>
    if commit_fails sc then (Threw commit_failed, Some "commit")
    else (Returned VUndefined, Some "commit");
  rollback := fun _ w =>
    if rollback_fails sc then (Threw rollback_failed, Some "rollback")
    else (Returned VUndefined, Some "rollback")
|}.

(** A stand-in for [util.inspect]. *)
Definition pretty (v : value) : string :=
  match v with
  | VUndefined => "undefined"
  | VNull => "null"
  | VBoolean true => "true"
  | VBoolean false => "false"
  | VString s => "'" ++ s ++ "'"
  | VObject o =>
      if callable o then "[Function]"
      else match constructor_name o with
           | ConstructorNamed class => class ++ " {}"
           | _ => "{}"
           end
  | _ => "?"
  end.

Definition start : state World := St None [].

Definition run (sc : script) (handler errorHandler : value) (params : list value)
  : settled * state World :=
  transactionalMethod (env sc) pretty handler errorHandler params start.

End Mock.

(** The same database, with the README's error handler for an error
    handler. *)
Module MockReadme.

Definition env (sc : Mock.script) : Collaborators Mock.World := {|
  db_transaction := db_transaction (Mock.env sc);
  call := fun f args w =>
    if strict_eq f Mock.errorHandler then
      readme_errorHandler (Mock.env sc)
        (index args 0) (index args 1) (index args 2) (index args 3) w
    else call (Mock.env sc) f args w;
  finished := finished (Mock.env sc);
  commit := commit (Mock.env sc);
  rollback := rollback (Mock.env sc)
|}.

Definition run (sc : Mock.script) (handler errorHandler : value) (params : list value)
  : settled * state Mock.World :=
  transactionalMethod (env sc) Mock.pretty handler errorHandler params Mock.start.

End MockReadme.

(** ** Tactics for symbolic runs *)

(** The monad's operations, unfolded for symbolic runs. *)
Create Rewrite HintDb run_trace.

Ltac unfold_body :=
  unfold try_catch, attempt, recover, bind, await, read, ret, throw, settle;
  cbn [world trace fst snd truthy negb].

Ltac tidy :=
  cbn [world trace fst snd negb andb];
  rewrite <- ?app_assoc; cbn [app].

Ltac read_trace :=
  tidy;
  autorewrite with run_trace;
  cbn [filter is_creation is_commit is_rollback].

(** Every way the collaborators can answer. *)
Ltac all_cases :=
  repeat (tidy;
          match goal with
          | |- context [call ?E ?f ?a ?w] => destruct (call E f a w) as [[?|?] ?]
          | |- context [commit ?E ?t ?w] => destruct (commit E t w) as [[?|?] ?]
          | |- context [rollback ?E ?t ?w] => destruct (rollback E t w) as [[?|?] ?]
          | |- context [if ?b then _ else _] => destruct b
          end).

(** The same, for [db.transaction()] as well, keeping what each
    collaborator answered. *)
Ltac every_case :=
  repeat (tidy;
          match goal with
          | |- context [db_transaction ?E ?d ?w] =>
              destruct (db_transaction E d w) as [[?|?] ?] eqn:?
          | |- context [call ?E ?f ?a ?w] => destruct (call E f a w) as [[?|?] ?] eqn:?
          | |- context [commit ?E ?t ?w] => destruct (commit E t w) as [[?|?] ?] eqn:?
          | |- context [rollback ?E ?t ?w] => destruct (rollback E t w) as [[?|?] ?] eqn:?
          | |- context [if ?b then _ else _] => destruct b eqn:?
          end).

(** ** Concrete runs *)

Example run_standalone :
  Mock.run Mock.happy Mock.handler VUndefined [Mock.db; VString "data"]
  = (Resolved (VString "ok"),
     St (Some "commit")
        [EvTransaction Mock.db;
         EvCall Mock.handler [Mock.db; VObject Mock.created; VString "data"];
         EvCommit (VObject Mock.created)]).
Proof. reflexivity. Qed.

Example run_bundled :
  Mock.run Mock.happy Mock.handler VUndefined [Mock.db; VString "data"; Mock.supplied]
  = (Resolved (VString "ok"),
     St None [EvCall Mock.handler [Mock.db; Mock.supplied; VString "data"]]).
Proof. reflexivity. Qed.

(** The transaction is found wherever it stands; a second mention of the
    database is dropped along with the first. *)
Example run_transaction_anywhere :
  Mock.run Mock.happy Mock.handler VUndefined
    [Mock.db; VString "a"; VNumber 1; Mock.supplied; Mock.db; VString "b"]
  = (Resolved (VString "ok"),
     St None
        [EvCall Mock.handler
           [Mock.db; Mock.supplied; VString "a"; VNumber 1; VString "b"]]).
Proof. reflexivity. Qed.

(** An [undefined] in the place of the transaction is a parameter like any
    other: the handler gets it after the transaction that was created. *)
Example run_with_placeholder :
  Mock.run Mock.happy Mock.handler VUndefined [Mock.db; VUndefined; VString "data"]
  = (Resolved (VString "ok"),
     St (Some "commit")
        [EvTransaction Mock.db;
         EvCall Mock.handler [Mock.db; VObject Mock.created; VUndefined; VString "data"];
         EvCommit (VObject Mock.created)]).
Proof. reflexivity. Qed.

(** A handler that settles the transaction itself leaves nothing to commit. *)
Example run_already_finished :
  Mock.run Mock.handler_settles Mock.handler VUndefined [Mock.db]
  = (Resolved (VString "ok"),
     St (Some "rollback")
        [EvTransaction Mock.db;
         EvCall Mock.handler [Mock.db; VObject Mock.created]]).
Proof. reflexivity. Qed.

Example run_without_database :
  Mock.run Mock.happy Mock.handler VUndefined [VString "data"; Mock.db]
  = (RejectedNewError
       "Expected the first parameter to be a Sequelize instance, but instead received: (string) 'data'",
     Mock.start).
Proof. reflexivity. Qed.

(** An object whose constructor is [null] makes the test throw, before the
    first parameter is looked at and before a transaction further on is
    found. *)
Example run_null_constructor :
  Mock.run Mock.happy Mock.handler VUndefined
    [Mock.db; VString "data"; Mock.null_constructor; Mock.supplied]
  = (RejectedTypeError, Mock.start).
Proof. reflexivity. Qed.

(** Behind the transaction it is never tested. *)
Example run_null_constructor_behind :
  Mock.run Mock.happy Mock.handler VUndefined
    [Mock.db; Mock.supplied; Mock.null_constructor]
  = (Resolved (VString "ok"),
     St None [EvCall Mock.handler [Mock.db; Mock.supplied; Mock.null_constructor]]).
Proof. reflexivity. Qed.

(** ** Facts about values and arrays *)

Lemma constructor_reading_eqb_refl (c : constructor_reading) :
  constructor_reading_eqb c c = true.
Proof. destruct c; simpl; auto using String.eqb_refl. Qed.

Lemma constructor_reading_eqb_eq (a b : constructor_reading) :
  constructor_reading_eqb a b = true -> a = b.
Proof.
  destruct a, b; simpl; try discriminate; auto.
  intros H. apply String.eqb_eq in H. now subst.
Qed.

Lemma object_eqb_refl (o : object) : object_eqb o o = true.
Proof.
  unfold object_eqb.
  now rewrite Nat.eqb_refl, !Bool.eqb_reflx, constructor_reading_eqb_refl.
Qed.

Lemma object_eqb_eq (a b : object) : object_eqb a b = true -> a = b.
Proof.
  destruct a as [r1 c1 i1 f1 n1], b as [r2 c2 i2 f2 n2]; unfold object_eqb; simpl.
  intros H.
  apply andb_true_iff in H as [H Hn].
  apply andb_true_iff in H as [H Hf].
  apply andb_true_iff in H as [H Hi].
  apply andb_true_iff in H as [Hr Hc].
  apply Nat.eqb_eq in Hr.
  apply Bool.eqb_prop in Hc, Hi, Hf.
  apply constructor_reading_eqb_eq in Hn.
  now subst.
Qed.

Lemma strict_eq_object (v : value) (o : object) :
  strict_eq v (VObject o) = true -> v = VObject o.
Proof.
  destruct v; simpl; try discriminate.
  intros H. now rewrite (object_eqb_eq _ _ H).
Qed.

(** A parameter that is no object is identical to no object. *)
Lemma strict_eq_not_object (p : value) (o : object) :
  (forall o', p <> VObject o') -> strict_eq p (VObject o) = false.
Proof.
  intros Hp. destruct (strict_eq p (VObject o)) eqn:H; [|reflexivity].
  apply strict_eq_object in H. now apply Hp in H.
Qed.

(** The tests only ever say yes to an object; they say no to everything
    that is not one, without throwing. *)
Lemma isSequelize_object (v : value) :
  isSequelize v = Yields true -> exists o, v = VObject o.
Proof. destruct v; simpl; try discriminate. now eexists. Qed.

Lemma isTransaction_object (v : value) :
  isTransaction v = Yields true -> exists o, v = VObject o.
Proof. destruct v; simpl; try discriminate. now eexists. Qed.

Lemma isTransaction_not_object (p : value) :
  (forall o, p <> VObject o) -> isTransaction p = Yields false.
Proof. destruct p; try reflexivity. intros H. now destruct (H o). Qed.

(** The test throws exactly on an instance of [Object] whose constructor is
    [null] or [undefined]. *)
Lemma isSequelize_throws (v : value) :
  isSequelize v = TypeError
  <-> exists o, v = VObject o /\ inherits_Object o = true
                /\ constructor_name o = NoConstructor.
Proof.
  split.
  - destruct v as [| | | | | | |o]; try discriminate.
    unfold isSequelize; simpl.
    destruct (inherits_Object o) eqn:Hi; [|discriminate].
    destruct (constructor_name o) eqn:Hc; try discriminate.
    intros _. now exists o.
  - intros (o & -> & Hi & Hc). unfold isSequelize; simpl. now rewrite Hi, Hc.
Qed.

Lemma isTransaction_throws (v : value) :
  isTransaction v = TypeError
  <-> exists o, v = VObject o /\ inherits_Object o = true
                /\ constructor_name o = NoConstructor.
Proof.
  split.
  - destruct v as [| | | | | | |o]; try discriminate.
    unfold isTransaction; simpl.
    destruct (inherits_Object o) eqn:Hi; [|discriminate].
    destruct (constructor_name o) eqn:Hc; try discriminate.
    intros _. now exists o.
  - intros (o & -> & Hi & Hc). unfold isTransaction; simpl. now rewrite Hi, Hc.
Qed.

Lemma isSequelize_strict_eq (v : value) :
  isSequelize v = Yields true -> strict_eq v v = true.
Proof.
  intros H. destruct (isSequelize_object v H) as [o ->]. apply object_eqb_refl.
Qed.

Lemma isSequelize_truthy (v : value) : isSequelize v = Yields true -> truthy v = true.
Proof. intros H. now destruct (isSequelize_object v H) as [o ->]. Qed.

Lemma isTransaction_truthy (v : value) : isTransaction v = Yields true -> truthy v = true.
Proof. intros H. now destruct (isTransaction_object v H) as [o ->]. Qed.

(** One constructor name cannot be both. *)
Lemma isSequelize_not_isTransaction (v : value) :
  isSequelize v = Yields true -> isTransaction v = Yields false.
Proof.
  destruct v as [| | | | | | |o]; try discriminate.
  unfold isSequelize, isTransaction; simpl.
  destruct (inherits_Object o); [|discriminate].
  destruct (constructor_name o) as [|n|]; try discriminate.
  intros [= H]. apply String.eqb_eq in H. now subst n.
Qed.

Lemma instanceof_Function_truthy (v : value) :
  instanceof_Function v = true -> truthy v = true.
Proof. now destruct v. Qed.

Lemma typeof_undefined (v : value) :
  String.eqb (typeof v) "undefined" = true <-> v = VUndefined.
Proof.
  destruct v as [| | | | | | |o]; simpl; split; try congruence.
  now destruct (callable o).
Qed.

Lemma find_here (p : value -> checked bool) (a : value) (l : list value) :
  p a = Yields true -> JS.find p (a :: l) = Yields a.
Proof. intros H. simpl. now rewrite H. Qed.

Lemma find_later (p : value -> checked bool) (a : value) (l : list value) :
  p a = Yields false -> JS.find p (a :: l) = JS.find p l.
Proof. intros H. simpl. now rewrite H. Qed.

(** What [find] yields passes the test, unless it is the [undefined] of a
    search in which every element failed it. *)
Lemma find_yields (p : value -> checked bool) (l : list value) (v : value) :
  JS.find p l = Yields v ->
  p v = Yields true
  \/ (v = VUndefined /\ Forall (fun a => p a = Yields false) l).
Proof.
  induction l as [|a l IH]; simpl.
  - intros [= <-]. right. auto.
  - destruct (p a) as [[|]|] eqn:Ha; try discriminate.
    + intros [= <-]. now left.
    + intros H. destruct (IH H) as [Hv | [-> Hl]]; [now left|].
      right. auto.
Qed.

(** [find] stops at the first match, wherever it is. *)
Lemma find_skips (p : value -> checked bool) (before after : list value) (a : value) :
  Forall (fun b => p b = Yields false) before -> p a = Yields true ->
  JS.find p (before ++ a :: after) = Yields a.
Proof.
  induction 1 as [|b before Hb _ IH]; simpl; intros Ha.
  - now rewrite Ha.
  - rewrite Hb. auto.
Qed.

(** And it stops at the first test that throws. *)
Lemma find_throws (p : value -> checked bool) (before after : list value) (a : value) :
  Forall (fun b => p b = Yields false) before -> p a = TypeError ->
  JS.find p (before ++ a :: after) = TypeError.
Proof.
  induction 1 as [|b before Hb _ IH]; simpl; intros Ha.
  - now rewrite Ha.
  - rewrite Hb. auto.
Qed.

(** The transaction found is truthy exactly when it is one. *)
Lemma found_transaction (l : list value) (t : value) :
  JS.find isTransaction l = Yields t ->
  (truthy t = true /\ isTransaction t = Yields true)
  \/ (t = VUndefined /\ Forall (fun a => isTransaction a = Yields false) l).
Proof.
  intros H. destruct (find_yields _ _ _ H) as [Ht|Hnone]; [left|now right].
  split; [now apply isTransaction_truthy | exact Ht].
Qed.

Lemma skipn_app_exact (A : Type) (l evs : list A) :
  skipn (List.length l) (l ++ evs) = evs.
Proof. induction l; simpl; auto. Qed.

Lemma events_since_app {World : Type} (s s' : state World) (evs : list event) :
  trace s' = (trace s ++ evs)%list -> events_since s s' = evs.
Proof. unfold events_since. intros ->. apply skipn_app_exact. Qed.

Lemma events_since_St {World : Type} (s : state World) (w : World) (evs : list event) :
  events_since s (St w (trace s ++ evs)) = evs.
Proof. now apply events_since_app. Qed.

#[local] Hint Rewrite @events_since_St : run_trace.

Lemma events_since_same {World : Type} (s : state World) : events_since s s = [].
Proof. apply events_since_app. now rewrite app_nil_r. Qed.

(** [filter] computes the remaining parameters of the specification, and
    the specification leaves no choice. *)
Lemma handlerParams_Remaining (params : list value) (db wt : value) :
  Remaining db wt params (handlerParams params db wt).
Proof.
  unfold handlerParams, strict_neq.
  induction params as [|p ps IH]; simpl.
  - constructor.
  - destruct (strict_eq p db) eqn:Hdb; simpl.
    + now apply Remaining_db.
    + destruct (strict_eq p wt) eqn:Hwt; simpl.
      * now apply Remaining_wt.
      * now apply Remaining_other.
Qed.

Lemma Remaining_functional (db wt : value) (params r1 r2 : list value) :
  Remaining db wt params r1 -> Remaining db wt params r2 -> r1 = r2.
Proof.
  intros H1. revert r2.
  induction H1; intros r2 H2; inversion H2; subst; try congruence; auto.
  f_equal. auto.
Qed.

Lemma Remaining_untouched (db wt : value) (params : list value) :
  Forall (fun p => strict_eq p db = false /\ strict_eq p wt = false) params ->
  Remaining db wt params params.
Proof.
  induction 1 as [|p ps [Hdb Hwt] _ IH].
  - apply Remaining_nil.
  - now apply Remaining_other.
Qed.

Lemma find_none (p : value -> checked bool) (l : list value) :
  Forall (fun a => p a = Yields false) l -> JS.find p l = Yields VUndefined.
Proof. induction 1 as [|a l Ha _ IH]; simpl; [reflexivity|]. now rewrite Ha. Qed.

(** ** The generated method *)

Section Properties.
Context {World : Type} (env : Collaborators World) (pretty : value -> string).

(** The test of line 79 fails a first parameter that is no Sequelize
    instance, whatever the search has found further on. *)
Lemma first_parameter_test (params : list value) (db : value) :
  JS.find isSequelize params = Yields db ->
  isSequelize (index params 0) = Yields false ->
  negb (truthy db) || strict_neq (index params 0) db = true.
Proof.
  intros Hfind Hfirst.
  destruct (find_yields _ _ _ Hfind) as [Hdb | [-> _]]; [|reflexivity].
  destruct (isSequelize_object _ Hdb) as [o ->]. simpl. unfold strict_neq.
  destruct (strict_eq (index params 0) (VObject o)) eqn:Heq; [|reflexivity].
  apply strict_eq_object in Heq. congruence.
Qed.

(** Past the searches and that test, the call is the rest of the body. *)
Lemma transactionalMethod_valid (handler errorHandler db transaction : value)
    (args : list value) (s : state World) :
  isSequelize db = Yields true ->
  JS.find isTransaction args = Yields transaction ->
  transactionalMethod env pretty handler errorHandler (db :: args) s
  = settle
      ((handlerTransaction <- acquire env db transaction ;;
        try_catch
          (attempt env handler db transaction handlerTransaction (db :: args))
          (recover env errorHandler db transaction handlerTransaction)) s).
Proof.
  intros Hdb Hfind. unfold transactionalMethod.
  rewrite (find_here isSequelize db args Hdb).
  rewrite (find_later isTransaction db args (isSequelize_not_isTransaction db Hdb)).
  rewrite Hfind. unfold index, strict_neq.
  change (nth 0 (db :: args) VUndefined) with db.
  now rewrite (isSequelize_truthy _ Hdb), (isSequelize_strict_eq _ Hdb).
Qed.

(** A test that throws rejects the call there and then. *)
Lemma run_type_error (handler errorHandler : value) (params : list value)
    (s : state World) :
  JS.find isSequelize params = TypeError \/ JS.find isTransaction params = TypeError ->
  transactionalMethod env pretty handler errorHandler params s = (RejectedTypeError, s).
Proof.
  unfold transactionalMethod. intros [H|H].
  - now rewrite H.
  - rewrite H. now destruct (JS.find isSequelize params).
Qed.

Lemma run_type_error_valid (handler errorHandler db : value) (args : list value)
    (s : state World) :
  isSequelize db = Yields true ->
  JS.find isTransaction args = TypeError ->
  transactionalMethod env pretty handler errorHandler (db :: args) s = (RejectedTypeError, s).
Proof.
  intros Hdb Hfind. apply run_type_error. right.
  now rewrite (find_later isTransaction db args (isSequelize_not_isTransaction db Hdb)).
Qed.

Lemma run_invalid (handler errorHandler db transaction : value) (params : list value)
    (s : state World) :
  JS.find isSequelize params = Yields db ->
  JS.find isTransaction params = Yields transaction ->
  isSequelize (index params 0) = Yields false ->
  transactionalMethod env pretty handler errorHandler params s
  = (RejectedNewError (first_parameter_message pretty params), s).
Proof.
  intros Hdb Htx Hfirst. unfold transactionalMethod.
  now rewrite Hdb, Htx, (first_parameter_test params db Hdb Hfirst).
Qed.

(** The three ways a call can go, told from the parameters alone. *)
Lemma run_cases (params : list value) (s : state World) :
  (forall handler errorHandler,
      transactionalMethod env pretty handler errorHandler params s = (RejectedTypeError, s))
  \/ (forall handler errorHandler,
      transactionalMethod env pretty handler errorHandler params s
      = (RejectedNewError (first_parameter_message pretty params), s))
  \/ (exists db args transaction,
      params = db :: args /\ isSequelize db = Yields true
      /\ JS.find isTransaction args = Yields transaction).
Proof.
  destruct (JS.find isSequelize params) as [db|] eqn:Hdb;
    [|left; intros; apply run_type_error; now left].
  destruct (JS.find isTransaction params) as [t|] eqn:Ht;
    [|left; intros; apply run_type_error; now right].
  right.
  destruct params as [|p ps].
  - left. intros. now apply (run_invalid _ _ db t).
  - destruct (isSequelize p) as [[|]|] eqn:Hp.
    + right. exists p, ps, t. repeat split; [exact Hp|].
      now rewrite (find_later isTransaction p ps (isSequelize_not_isTransaction p Hp)) in Ht.
    + left. intros. now apply (run_invalid _ _ db t).
    + simpl in Hdb. now rewrite Hp in Hdb.
Qed.

(** A supplied transaction is used as it is, without a call. *)
Lemma acquire_supplied (db tx : value) (s : state World) :
  truthy tx = true -> acquire env db tx s = (Returned tx, s).
Proof. intros Htx. unfold acquire. now rewrite Htx. Qed.

(** Otherwise the database is asked for one. *)
Lemma acquire_local (db : value) (s : state World) :
  acquire env db VUndefined s
  = match db_transaction env db (world s) with
    | (Returned tx, w) => (Returned (VObject tx), St w (trace s ++ [EvTransaction db]))
    | (Threw e, w) => (Threw e, St w (trace s ++ [EvTransaction db]))
    end.
Proof.
  unfold acquire, bind, await, ret. simpl.
  now destruct (db_transaction env db (world s)) as [[tx|e] w].
Qed.

(** Whatever [acquire] does, it never commits or rolls back. *)
Lemma acquire_trace (db transaction : value) (s s1 : state World) (r : outcome value) :
  acquire env db transaction s = (r, s1) ->
  exists created,
    trace s1 = (trace s ++ created)%list
    /\ (created = [] \/ created = [EvTransaction db]).
Proof.
  unfold acquire, bind, await, ret.
  destruct (truthy transaction).
  - intros [= _ <-]. exists []. now rewrite app_nil_r; auto.
  - destruct (db_transaction env db (world s)) as [[tx|e] w];
      intros [= _ <-]; exists [EvTransaction db]; auto.
Qed.

(** Once the working transaction is there, what is left of the call is
    the [try]/[catch]. *)
Lemma run_acquired (handler errorHandler db transaction wt : value) (args : list value)
    (s s1 : state World) :
  isSequelize db = Yields true ->
  JS.find isTransaction args = Yields transaction ->
  acquire env db transaction s = (Returned wt, s1) ->
  transactionalMethod env pretty handler errorHandler (db :: args) s
  = settle
      (try_catch
         (attempt env handler db transaction wt (db :: args))
         (recover env errorHandler db transaction wt)
         s1).
Proof.
  intros Hdb Hfind Hacq.
  rewrite (transactionalMethod_valid _ _ db transaction args s Hdb Hfind).
  unfold bind at 1. now rewrite Hacq.
Qed.

Lemma run_local (handler errorHandler db : value) (args : list value) (tx : object)
    (s : state World) (w1 : World) :
  isSequelize db = Yields true ->
  JS.find isTransaction args = Yields VUndefined ->
  db_transaction env db (world s) = (Returned tx, w1) ->
  transactionalMethod env pretty handler errorHandler (db :: args) s
  = settle
      (try_catch
         (attempt env handler db VUndefined (VObject tx) (db :: args))
         (recover env errorHandler db VUndefined (VObject tx))
         (St w1 (trace s ++ [EvTransaction db]))).
Proof.
  intros Hdb Hargs Hcreate.
  apply (run_acquired handler errorHandler db VUndefined (VObject tx) args s
           (St w1 (trace s ++ [EvTransaction db])) Hdb Hargs).
  now rewrite acquire_local, Hcreate.
Qed.

Lemma run_supplied (handler errorHandler db tx : value) (args : list value)
    (s : state World) :
  isSequelize db = Yields true ->
  JS.find isTransaction args = Yields tx ->
  isTransaction tx = Yields true ->
  transactionalMethod env pretty handler errorHandler (db :: args) s
  = settle
      (try_catch
         (attempt env handler db tx tx (db :: args))
         (recover env errorHandler db tx tx)
         s).
Proof.
  intros Hdb Hfind Htx.
  apply (run_acquired handler errorHandler db tx tx args s s Hdb Hfind).
  apply acquire_supplied. now apply isTransaction_truthy.
Qed.

(** The handler is called with the database, the working transaction and
    the filtered parameters, and its answer decides the rest. *)
Lemma run_branches (handler errorHandler db transaction wt : value) (args : list value)
    (s s1 : state World) :
  isSequelize db = Yields true ->
  JS.find isTransaction args = Yields transaction ->
  acquire env db transaction s = (Returned wt, s1) ->
  HandlerCalledWith env handler errorHandler db transaction wt
    (db :: wt :: handlerParams (db :: args) db wt) s1
    (transactionalMethod env pretty handler errorHandler (db :: args) s).
Proof.
  intros Hdb Hfind Hacq. unfold HandlerCalledWith.
  rewrite (run_acquired handler errorHandler db transaction wt args s s1 Hdb Hfind Hacq).
  unfold_body. split.
  - intros v w2 Hcall. rewrite Hcall. tidy. split.
    + intros [Ht | Hfin].
      * rewrite Ht. tidy. reflexivity.
      * destruct (truthy transaction); tidy; [reflexivity|].
        rewrite Hfin. tidy. reflexivity.
    + intros Ht Hfin r w3 Hcommit.
      rewrite Ht. tidy. rewrite Hfin. tidy. rewrite Hcommit. tidy. reflexivity.
  - intros e w2 Hcall. rewrite Hcall. tidy. split; [|split].
    + intros Heh. rewrite Heh. tidy.
      now destruct (call env errorHandler _ w2) as [[v'|e'] w3].
    + intros Heh Ht. rewrite Heh, Ht. tidy. reflexivity.
    + intros Heh Ht r w3 Hrollback.
      rewrite Heh, Ht. tidy. rewrite Hrollback. tidy. reflexivity.
Qed.

(** C8.  With no transaction among the parameters, a failure of
    [db.transaction()] rejects the call with that very failure; the only
    call made is [db.transaction()]: no handler, no commit, no rollback
    and no error handler, whether one was given or not. *)
Theorem transaction_creation_failure_propagates
    (handler errorHandler db e : value) (args : list value)
    (s : state World) (w1 : World) :
  isSequelize db = Yields true ->
  JS.find isTransaction args = Yields VUndefined ->
  db_transaction env db (world s) = (Threw e, w1) ->
  transactionalMethod env pretty handler errorHandler (db :: args) s
  = (Rejected e, St w1 (trace s ++ [EvTransaction db])).
Proof.
  intros Hdb Hargs Hcreate.
  rewrite (transactionalMethod_valid _ _ db VUndefined args s Hdb Hargs).
  unfold bind. rewrite acquire_local, Hcreate. reflexivity.
Qed.

(** C2.  No error handler, no transaction among the parameters, and the
    handler returns [v]: exactly one transaction is created, by
    [db.transaction()]; [commit] is called on it exactly once, unless its
    [finished] property is already set, in which case it is not called;
    and, the commit going through, the call resolves with [v] itself, in
    the world the commit has left (the world the handler has left, when
    there was nothing to commit). *)
Theorem local_transaction_commits_once
    (handler db v : value) (args : list value) (tx : object)
    (s : state World) (w1 w2 : World) :
  isSequelize db = Yields true ->
  JS.find isTransaction args = Yields VUndefined ->
  db_transaction env db (world s) = (Returned tx, w1) ->
  call env handler (db :: VObject tx :: handlerParams (db :: args) db (VObject tx)) w1
    = (Returned v, w2) ->
  let run := transactionalMethod env pretty handler VUndefined (db :: args) s in
  let called :=
    [EvTransaction db;
     EvCall handler (db :: VObject tx :: handlerParams (db :: args) db (VObject tx))] in
  filter is_creation (events_since s (snd run)) = [EvTransaction db]
  /\ filter is_commit (events_since s (snd run))
     = (if truthy (finished env (VObject tx) w2) then [] else [EvCommit (VObject tx)])
  /\ (truthy (finished env (VObject tx) w2) = true ->
      run = (Resolved v, St w2 (trace s ++ called)))
  /\ (truthy (finished env (VObject tx) w2) = false ->
      forall r w3, commit env (VObject tx) w2 = (Returned r, w3) ->
      run = (Resolved v, St w3 (trace s ++ called ++ [EvCommit (VObject tx)]))).
Proof.
  intros Hdb Hargs Hcreate Hcall run called. subst run called.
  rewrite (run_local handler VUndefined db args tx s w1 Hdb Hargs Hcreate).
  unfold_body. rewrite Hcall. tidy.
  destruct (truthy (finished env (VObject tx) w2)) eqn:Hfin; tidy.
  - read_trace. split; [reflexivity|]. split; [reflexivity|]. split.
    + intros _. reflexivity.
    + intros Hf. discriminate Hf.
  - destruct (commit env (VObject tx) w2) as [[r|ec] w3] eqn:Hcommit; tidy.
    + read_trace. split; [reflexivity|]. split; [reflexivity|]. split.
      * intros Hf. discriminate Hf.
      * intros _ r' w3' [= _ <-]. reflexivity.
    + destruct (rollback env (VObject tx) w3) as [[r|er] w4];
        read_trace;
        (split; [reflexivity|]; split; [reflexivity|]; split;
         [intros Hf; discriminate Hf | intros _ r' w3' [=]]).
Qed.

(** C3.  No error handler, no transaction among the parameters, and the
    handler throws [e]: one transaction is created, [rollback] is called
    on it exactly once and [commit] never; and, the rollback going
    through, the call is rejected with [e] itself. *)
Theorem local_transaction_rolls_back_once
    (handler db e : value) (args : list value) (tx : object)
    (s : state World) (w1 w2 : World) :
  isSequelize db = Yields true ->
  JS.find isTransaction args = Yields VUndefined ->
  db_transaction env db (world s) = (Returned tx, w1) ->
  call env handler (db :: VObject tx :: handlerParams (db :: args) db (VObject tx)) w1
    = (Threw e, w2) ->
  let run := transactionalMethod env pretty handler VUndefined (db :: args) s in
  filter is_creation (events_since s (snd run)) = [EvTransaction db]
  /\ filter is_rollback (events_since s (snd run)) = [EvRollback (VObject tx)]
  /\ filter is_commit (events_since s (snd run)) = []
  /\ forall r w3, rollback env (VObject tx) w2 = (Returned r, w3) ->
       run = (Rejected e,
              St w3 (trace s ++
                [EvTransaction db;
                 EvCall handler
                   (db :: VObject tx :: handlerParams (db :: args) db (VObject tx));
                 EvRollback (VObject tx)])).
Proof.
  intros Hdb Hargs Hcreate Hcall run. subst run.
  rewrite (run_local handler VUndefined db args tx s w1 Hdb Hargs Hcreate).
  unfold_body. rewrite Hcall. tidy.
  destruct (rollback env (VObject tx) w2) as [[r|er] w3]; read_trace;
    (split; [reflexivity | split; [reflexivity | split; [reflexivity|]]]);
    intros r' w' [= ]; subst; reflexivity.
Qed.

(** C10.  In the same setting, when the rollback throws [e'] the call is
    rejected with [e']: the handler's error [e] is not what the caller
    gets. *)
Theorem rollback_failure_replaces_handler_error
    (handler db e e' : value) (args : list value) (tx : object)
    (s : state World) (w1 w2 w3 : World) :
  isSequelize db = Yields true ->
  JS.find isTransaction args = Yields VUndefined ->
  db_transaction env db (world s) = (Returned tx, w1) ->
  call env handler (db :: VObject tx :: handlerParams (db :: args) db (VObject tx)) w1
    = (Threw e, w2) ->
  rollback env (VObject tx) w2 = (Threw e', w3) ->
  transactionalMethod env pretty handler VUndefined (db :: args) s
  = (Rejected e',
     St w3 (trace s ++
       [EvTransaction db;
        EvCall handler (db :: VObject tx :: handlerParams (db :: args) db (VObject tx));
        EvRollback (VObject tx)])).
Proof.
  intros Hdb Hargs Hcreate Hcall Hrollback.
  rewrite (run_local handler VUndefined db args tx s w1 Hdb Hargs Hcreate).
  unfold_body. rewrite Hcall. tidy. rewrite Hrollback. tidy. reflexivity.
Qed.

(** C4.  With an error handler, when the handler throws [e] the error
    handler is called with [e], the database, the working transaction and
    the transaction found among the parameters ([undefined] when there
    was none); what it returns resolves the call and what it throws
    rejects it; and the wrapper calls no [rollback] at all. *)
Theorem error_handler_takes_over
    (handler errorHandler db original wt e : value) (args : list value)
    (s s1 : state World) (w2 : World) :
  instanceof_Function errorHandler = true ->
  isSequelize db = Yields true ->
  JS.find isTransaction args = Yields original ->
  acquire env db original s = (Returned wt, s1) ->
  call env handler (db :: wt :: handlerParams (db :: args) db wt) (world s1)
    = (Threw e, w2) ->
  let handled := call env errorHandler [e; db; wt; original] w2 in
  let run := transactionalMethod env pretty handler errorHandler (db :: args) s in
  run = (match fst handled with
         | Returned v => Resolved v
         | Threw e' => Rejected e'
         end,
         St (snd handled)
            (trace s1 ++
               [EvCall handler (db :: wt :: handlerParams (db :: args) db wt);
                EvCall errorHandler [e; db; wt; original]]))
  /\ filter is_rollback (events_since s (snd run)) = []
  /\ (Forall (fun p => isTransaction p = Yields false) args -> original = VUndefined).
Proof.
  intros Heh Hdb Hfind Hacq Hcall handled run. subst handled run.
  rewrite <- and_assoc. split.
  2:{ intros Hnone. rewrite (find_none _ _ Hnone) in Hfind. congruence. }
  rewrite (run_acquired handler errorHandler db original wt args s s1
             Hdb Hfind Hacq).
  unfold_body. rewrite Hcall. tidy.
  rewrite (instanceof_Function_truthy _ Heh).
  tidy.
  destruct (acquire_trace _ _ _ _ _ Hacq) as (created & Hs1 & Hcreated).
  rewrite Hs1.
  destruct (call env errorHandler _ w2) as [[v|e'] w3]; read_trace;
    (split; [reflexivity|]);
    destruct Hcreated as [-> | ->]; reflexivity.
Qed.

(** C5.  With a transaction among the parameters, the only call the
    wrapper makes is the handler's.  When the handler returns, the call
    resolves and no [commit] was called; when it throws and there is no
    error handler, the call is rejected with what it threw and no
    [rollback] was called.  The world is as the handler left it. *)
Theorem supplied_transaction_left_alone
    (handler errorHandler db tx : value) (args : list value) (s : state World) :
  isSequelize db = Yields true ->
  JS.find isTransaction args = Yields tx ->
  isTransaction tx = Yields true ->
  let arguments := db :: tx :: handlerParams (db :: args) db tx in
  (forall v w2,
      call env handler arguments (world s) = (Returned v, w2) ->
      transactionalMethod env pretty handler errorHandler (db :: args) s
      = (Resolved v, St w2 (trace s ++ [EvCall handler arguments])))
  /\ (forall e w2,
      call env handler arguments (world s) = (Threw e, w2) ->
      transactionalMethod env pretty handler VUndefined (db :: args) s
      = (Rejected e, St w2 (trace s ++ [EvCall handler arguments]))).
Proof.
  intros Hdb Hfind Htx arguments. subst arguments.
  split; intros r w2 Hcall;
    rewrite (run_supplied _ _ db tx args s Hdb Hfind Htx);
    unfold try_catch, attempt, recover;
    rewrite (isTransaction_truthy _ Htx);
    unfold_body; rewrite Hcall; reflexivity.
Qed.

(** C1, as the code has it.  [commit] is awaited inside the [try] block,
    so when the commit of a locally created transaction throws [ec] after
    the handler returned, [ec] is handled like an error of the handler:
    with an error handler, that one is called with [ec], the database, the
    transaction and [undefined], and settles the call; without one,
    [rollback] is called once on the transaction and the call is rejected,
    with [ec] when the rollback goes through and with the rollback's own
    failure otherwise. *)
Theorem commit_failure_handled_like_handler_failure
    (handler errorHandler db v ec : value) (args : list value) (tx : object)
    (s : state World) (w1 w2 w3 : World) :
  isSequelize db = Yields true ->
  JS.find isTransaction args = Yields VUndefined ->
  db_transaction env db (world s) = (Returned tx, w1) ->
  call env handler (db :: VObject tx :: handlerParams (db :: args) db (VObject tx)) w1
    = (Returned v, w2) ->
  truthy (finished env (VObject tx) w2) = false ->
  commit env (VObject tx) w2 = (Threw ec, w3) ->
  let attempted :=
    [EvTransaction db;
     EvCall handler (db :: VObject tx :: handlerParams (db :: args) db (VObject tx));
     EvCommit (VObject tx)] in
  let run := transactionalMethod env pretty handler errorHandler (db :: args) s in
  (instanceof_Function errorHandler = true ->
     let handled := call env errorHandler [ec; db; VObject tx; VUndefined] w3 in
     run = (match fst handled with
            | Returned v' => Resolved v'
            | Threw e' => Rejected e'
            end,
            St (snd handled)
               (trace s ++ attempted
                  ++ [EvCall errorHandler [ec; db; VObject tx; VUndefined]])))
  /\ (errorHandler = VUndefined ->
      run = match rollback env (VObject tx) w3 with
            | (Returned _, w4) =>
                (Rejected ec, St w4 (trace s ++ attempted ++ [EvRollback (VObject tx)]))
            | (Threw er, w4) =>
                (Rejected er, St w4 (trace s ++ attempted ++ [EvRollback (VObject tx)]))
            end).
Proof.
  intros Hdb Hargs Hcreate Hcall Hfin Hcommit attempted run. subst attempted run.
  rewrite (run_local handler errorHandler db args tx s w1 Hdb Hargs Hcreate).
  unfold try_catch, attempt, recover.
  split.
  - intros Heh. cbv zeta.
    rewrite (instanceof_Function_truthy _ Heh).
    unfold_body. rewrite Hcall. tidy. rewrite Hfin. tidy. rewrite Hcommit. tidy.
    now destruct (call env errorHandler _ w3) as [[v'|e'] w4].
  - intros ->.
    unfold_body. rewrite Hcall. tidy. rewrite Hfin. tidy. rewrite Hcommit. tidy.
    now destruct (rollback env (VObject tx) w3) as [[r|er] w4].
Qed.

(** C9.  The generator throws a new Error when the handler is not a
    function, and when an error handler is given (is not [undefined]) and
    is not a function; in both cases nothing else happens: no call is
    made and the world is as before.  With a function for a handler and
    an error handler that is absent or a function, it returns the method,
    again without doing anything else. *)
Theorem generator_validates_functions
    (handler errorHandler : value) (s : state World) :
  let built := sequelizeTransactionalMethodGenerator env pretty handler errorHandler s in
  (instanceof_Function handler = false ->
     built = (ThrowsNewError
                ("Expected handler to be a function, but instead received: ("
                   ++ typeof handler ++ ") " ++ pretty handler), s))
  /\ (errorHandler <> VUndefined -> instanceof_Function errorHandler = false ->
      built = (ThrowsNewError
                 (if instanceof_Function handler
                  then "Expected the error handler to be a function, but instead received: ("
                         ++ typeof errorHandler ++ ") " ++ pretty errorHandler
                  else handler_message pretty handler), s))
  /\ (instanceof_Function handler = true ->
      errorHandler = VUndefined \/ instanceof_Function errorHandler = true ->
      built = (ReturnsMethod (transactionalMethod env pretty handler errorHandler), s)).
Proof.
  intros built. subst built. unfold sequelizeTransactionalMethodGenerator.
  repeat split.
  - now intros ->.
  - intros Hgiven Heh. rewrite Heh.
    destruct (instanceof_Function handler); [|reflexivity].
    destruct (String.eqb (typeof errorHandler) "undefined") eqn:Hty; [|reflexivity].
    apply typeof_undefined in Hty. contradiction.
  - intros -> [-> | ->]; [reflexivity|].
    now rewrite andb_false_r.
Qed.

End Properties.
(** ** The theorems at work on the scripted database *)

(** C1 as stated does not hold.  The handler returns, the commit of the
    local transaction throws; with an error handler the failure is routed to
    it and the call resolves with what it returns, and without one the
    wrapper calls [rollback] before it rejects. *)
Lemma commit_failure_is_caught :
  call (Mock.env Mock.commit_breaks) Mock.handler
       [Mock.db; VObject Mock.created] None = (Returned (VString "ok"), None)
  /\ commit (Mock.env Mock.commit_breaks) (VObject Mock.created) None
     = (Threw Mock.commit_failed, Some "commit")
  /\ Mock.run Mock.commit_breaks Mock.handler Mock.errorHandler [Mock.db]
     = (Resolved (VString "recovered"),
        St (Some "commit")
           [EvTransaction Mock.db;
            EvCall Mock.handler [Mock.db; VObject Mock.created];
            EvCommit (VObject Mock.created);
            EvCall Mock.errorHandler
              [Mock.commit_failed; Mock.db; VObject Mock.created; VUndefined]])
  /\ Mock.run Mock.commit_breaks Mock.handler VUndefined [Mock.db]
     = (Rejected Mock.commit_failed,
        St (Some "rollback")
           [EvTransaction Mock.db;
            EvCall Mock.handler [Mock.db; VObject Mock.created];
            EvCommit (VObject Mock.created);
            EvRollback (VObject Mock.created)]).
Proof. repeat split. Qed.

Lemma commit_failure_handled_like_handler_failure_witness :
  Mock.run Mock.commit_breaks Mock.handler Mock.errorHandler [Mock.db]
  = (Resolved (VString "recovered"),
     St (Some "commit")
        [EvTransaction Mock.db;
         EvCall Mock.handler [Mock.db; VObject Mock.created];
         EvCommit (VObject Mock.created);
         EvCall Mock.errorHandler
           [Mock.commit_failed; Mock.db; VObject Mock.created; VUndefined]])
  /\ Mock.run Mock.commit_breaks Mock.handler VUndefined [Mock.db]
     = (Rejected Mock.commit_failed,
        St (Some "rollback")
           [EvTransaction Mock.db;
            EvCall Mock.handler [Mock.db; VObject Mock.created];
            EvCommit (VObject Mock.created);
            EvRollback (VObject Mock.created)]).
Proof.
  split.
  - apply (commit_failure_handled_like_handler_failure
             (Mock.env Mock.commit_breaks) Mock.pretty
             Mock.handler Mock.errorHandler Mock.db (VString "ok") Mock.commit_failed
             [] Mock.created Mock.start None None (Some "commit"));
      reflexivity.
  - apply (commit_failure_handled_like_handler_failure
             (Mock.env Mock.commit_breaks) Mock.pretty
             Mock.handler VUndefined Mock.db (VString "ok") Mock.commit_failed
             [] Mock.created Mock.start None None (Some "commit"));
      reflexivity.
Defined.

Lemma local_transaction_commits_once_witness :
  Mock.run Mock.happy Mock.handler VUndefined [Mock.db; VString "data"]
  = (Resolved (VString "ok"),
     St (Some "commit")
        [EvTransaction Mock.db;
         EvCall Mock.handler [Mock.db; VObject Mock.created; VString "data"];
         EvCommit (VObject Mock.created)])
  /\ Mock.run Mock.handler_settles Mock.handler VUndefined [Mock.db; VString "data"]
     = (Resolved (VString "ok"),
        St (Some "rollback")
           [EvTransaction Mock.db;
            EvCall Mock.handler [Mock.db; VObject Mock.created; VString "data"]]).
Proof.
  split.
  - destruct (local_transaction_commits_once
                (Mock.env Mock.happy) Mock.pretty
                Mock.handler Mock.db (VString "ok") [VString "data"] Mock.created
                Mock.start None None)
      as (_ & _ & _ & Hcommitted); [ reflexivity .. | ].
    apply (Hcommitted eq_refl VUndefined (Some "commit")). reflexivity.
  - destruct (local_transaction_commits_once
                (Mock.env Mock.handler_settles) Mock.pretty
                Mock.handler Mock.db (VString "ok") [VString "data"] Mock.created
                Mock.start None (Some "rollback"))
      as (_ & _ & Hfinished & _); [ reflexivity .. | ].
    apply (Hfinished eq_refl).
Defined.

Lemma local_transaction_rolls_back_once_witness :
  Mock.run Mock.handler_breaks Mock.handler VUndefined [Mock.db; VString "data"]
  = (Rejected Mock.boom,
     St (Some "rollback")
        [EvTransaction Mock.db;
         EvCall Mock.handler [Mock.db; VObject Mock.created; VString "data"];
         EvRollback (VObject Mock.created)]).
Proof.
  destruct (local_transaction_rolls_back_once
              (Mock.env Mock.handler_breaks) Mock.pretty
              Mock.handler Mock.db Mock.boom [VString "data"] Mock.created
              Mock.start None None)
    as (_ & _ & _ & Hrejected); [ reflexivity .. | ].
  apply (Hrejected VUndefined). reflexivity.
Defined.

Lemma error_handler_takes_over_witness :
  Mock.run Mock.handler_breaks Mock.handler Mock.errorHandler [Mock.db; VString "data"]
  = (Resolved (VString "recovered"),
     St None
        [EvTransaction Mock.db;
         EvCall Mock.handler [Mock.db; VObject Mock.created; VString "data"];
         EvCall Mock.errorHandler [Mock.boom; Mock.db; VObject Mock.created; VUndefined]])
  /\ Mock.run Mock.errorHandler_breaks Mock.handler Mock.errorHandler
       [Mock.db; Mock.supplied]
     = (Rejected Mock.worse,
        St None
           [EvCall Mock.handler [Mock.db; Mock.supplied];
            EvCall Mock.errorHandler [Mock.boom; Mock.db; Mock.supplied; Mock.supplied]]).
Proof.
  split.
  - apply (error_handler_takes_over
             (Mock.env Mock.handler_breaks) Mock.pretty
             Mock.handler Mock.errorHandler Mock.db VUndefined (VObject Mock.created)
             Mock.boom [VString "data"] Mock.start (St None [EvTransaction Mock.db]) None);
      reflexivity.
  - apply (error_handler_takes_over
             (Mock.env Mock.errorHandler_breaks) Mock.pretty
             Mock.handler Mock.errorHandler Mock.db Mock.supplied Mock.supplied
             Mock.boom [Mock.supplied] Mock.start Mock.start None);
      reflexivity.
Defined.

Lemma supplied_transaction_left_alone_witness :
  Mock.run Mock.happy Mock.handler VUndefined [Mock.db; Mock.supplied; VNumber 42]
  = (Resolved (VString "ok"),
     St None [EvCall Mock.handler [Mock.db; Mock.supplied; VNumber 42]])
  /\ Mock.run Mock.handler_breaks Mock.handler VUndefined
       [Mock.db; Mock.supplied; VNumber 42]
     = (Rejected Mock.boom,
        St None [EvCall Mock.handler [Mock.db; Mock.supplied; VNumber 42]]).
Proof.
  split.
  - apply (supplied_transaction_left_alone
             (Mock.env Mock.happy) Mock.pretty
             Mock.handler VUndefined Mock.db Mock.supplied
             [Mock.supplied; VNumber 42] Mock.start);
      reflexivity.
  - apply (supplied_transaction_left_alone
             (Mock.env Mock.handler_breaks) Mock.pretty
             Mock.handler VUndefined Mock.db Mock.supplied
             [Mock.supplied; VNumber 42] Mock.start);
      reflexivity.
Defined.

Lemma transaction_creation_failure_propagates_witness :
  Mock.run Mock.creation_breaks Mock.handler Mock.errorHandler [Mock.db; VString "data"]
  = (Rejected Mock.connection_refused, St None [EvTransaction Mock.db]).
Proof.
  apply (transaction_creation_failure_propagates
           (Mock.env Mock.creation_breaks) Mock.pretty
           Mock.handler Mock.errorHandler Mock.db Mock.connection_refused
           [VString "data"] Mock.start None);
    reflexivity.
Defined.

Lemma rollback_failure_replaces_handler_error_witness :
  Mock.run Mock.rollback_breaks Mock.handler VUndefined [Mock.db; VString "data"]
  = (Rejected Mock.rollback_failed,
     St (Some "rollback")
        [EvTransaction Mock.db;
         EvCall Mock.handler [Mock.db; VObject Mock.created; VString "data"];
         EvRollback (VObject Mock.created)]).
Proof.
  apply (rollback_failure_replaces_handler_error
           (Mock.env Mock.rollback_breaks) Mock.pretty
           Mock.handler Mock.db Mock.boom Mock.rollback_failed
           [VString "data"] Mock.created Mock.start None None (Some "rollback"));
    reflexivity.
Defined.

Lemma generator_validates_functions_witness :
  sequelizeTransactionalMethodGenerator (Mock.env Mock.happy) Mock.pretty
    (VString "nope") VUndefined Mock.start
  = (ThrowsNewError
       "Expected handler to be a function, but instead received: (string) 'nope'",
     Mock.start)
  /\ sequelizeTransactionalMethodGenerator (Mock.env Mock.happy) Mock.pretty
       Mock.handler VNull Mock.start
     = (ThrowsNewError
          "Expected the error handler to be a function, but instead received: (object) null",
        Mock.start)
  /\ sequelizeTransactionalMethodGenerator (Mock.env Mock.happy) Mock.pretty
       Mock.handler Mock.errorHandler Mock.start
     = (ReturnsMethod
          (transactionalMethod (Mock.env Mock.happy) Mock.pretty
             Mock.handler Mock.errorHandler),
        Mock.start).
Proof.
  split; [|split].
  - apply (proj1 (generator_validates_functions
             (Mock.env Mock.happy) Mock.pretty (VString "nope") VUndefined Mock.start)).
    reflexivity.
  - apply (proj1 (proj2 (generator_validates_functions
             (Mock.env Mock.happy) Mock.pretty Mock.handler VNull Mock.start)));
      [discriminate | reflexivity].
  - apply (proj2 (proj2 (generator_validates_functions
             (Mock.env Mock.happy) Mock.pretty Mock.handler Mock.errorHandler Mock.start)));
      [reflexivity | right; reflexivity].
Defined.

(** C7.  The first parameter is a string, so it is no Sequelize instance,
    and yet the call is not rejected with the Error that describes it: the
    second parameter is an object whose constructor is [null], the search
    of line 75 reads [name] off that constructor and the TypeError of that
    reading is what the caller gets. *)
Lemma type_error_preempts_first_parameter_check :
  isSequelize (index [VString "data"; Mock.null_constructor] 0) = Yields false
  /\ Mock.run Mock.happy Mock.handler VUndefined [VString "data"; Mock.null_constructor]
     = (RejectedTypeError, Mock.start).
Proof. split; reflexivity. Qed.

(** C6.  The third parameter is a transaction, but it is not recognised
    and the handler is not called: the search of line 76 comes upon the
    object whose constructor is [null] first, and the call is rejected with
    the TypeError of that test. *)
Lemma transaction_behind_null_constructor_not_found :
  isSequelize Mock.db = Yields true
  /\ isTransaction Mock.supplied = Yields true
  /\ Mock.run Mock.happy Mock.handler VUndefined
       [Mock.db; Mock.null_constructor; Mock.supplied]
     = (RejectedTypeError, Mock.start).
Proof. repeat split. Qed.

(** ** Further properties of the generated method *)

Section Further.
Context {World : Type} (env : Collaborators World) (pretty : value -> string).

(** X1.  When both searches come to an end and the first parameter does
    not pass the Sequelize test, the call is rejected with a new Error
    whose message shows the type and the rendering of the first parameter
    actually received; no collaborator is called (neither the handler nor
    [db.transaction]) and the world is untouched. *)
Theorem first_parameter_must_be_sequelize
    (handler errorHandler db transaction : value) (params : list value)
    (s : state World) :
  JS.find isSequelize params = Yields db ->
  JS.find isTransaction params = Yields transaction ->
  isSequelize (index params 0) = Yields false ->
  transactionalMethod env pretty handler errorHandler params s
  = (RejectedNewError
       ("Expected the first parameter to be a Sequelize instance, but instead received: ("
          ++ typeof (index params 0) ++ ") " ++ pretty (index params 0)),
     s)
  /\ events_since s (snd (transactionalMethod env pretty handler errorHandler params s)) = [].
Proof.
  intros Hdb Htx Hfirst.
  rewrite (run_invalid env pretty handler errorHandler db transaction params s
             Hdb Htx Hfirst).
  split; [reflexivity | apply events_since_same].
Qed.

(** X2.  In a call whose first parameter is a Sequelize instance and whose
    search for a transaction comes to an end, [db.transaction()] is called
    exactly once when no transaction was found and not at all when one was,
    however the handler, the commit, the rollback and the error handler
    turn out; and when it is called and throws, that is the end of the
    call. *)
Theorem creation_exactly_when_no_transaction
    (handler errorHandler db transaction : value) (args : list value) (s : state World) :
  isSequelize db = Yields true ->
  JS.find isTransaction args = Yields transaction ->
  let run := transactionalMethod env pretty handler errorHandler (db :: args) s in
  filter is_creation (events_since s (snd run))
  = (if truthy transaction then [] else [EvTransaction db])
  /\ (truthy transaction = false ->
      forall e w1, db_transaction env db (world s) = (Threw e, w1) ->
      run = (Rejected e, St w1 (trace s ++ [EvTransaction db]))).
Proof.
  intros Hdb Hfind run. subst run.
  rewrite (transactionalMethod_valid env pretty _ _ db transaction args s Hdb Hfind).
  unfold acquire, attempt, recover.
  destruct (truthy transaction) eqn:Ht; unfold_body; split.
  - every_case; read_trace; reflexivity.
  - discriminate.
  - every_case; read_trace; reflexivity.
  - intros _ e w1 Hcreate. rewrite Hcreate. reflexivity.
Qed.

(** X3.  The wrapper only ever commits a transaction it has created
    itself, and only after the handler has returned and left the [finished]
    property of that transaction unset; this holds with or without an error
    handler. *)
Theorem commit_only_own_unfinished_transaction
    (handler errorHandler db t : value) (args : list value) (s : state World) :
  isSequelize db = Yields true ->
  In (EvCommit t)
     (events_since s (snd (transactionalMethod env pretty handler errorHandler (db :: args) s))) ->
  JS.find isTransaction args = Yields VUndefined
  /\ exists tx w1 v w2,
       db_transaction env db (world s) = (Returned tx, w1)
       /\ t = VObject tx
       /\ call env handler (db :: t :: handlerParams (db :: args) db t) w1 = (Returned v, w2)
       /\ truthy (finished env t w2) = false.
Proof.
  intros Hdb.
  destruct (JS.find isTransaction args) as [transaction|] eqn:Hfind.
  2:{ rewrite (run_type_error_valid env pretty _ _ db args s Hdb Hfind).
      cbn [snd]. rewrite events_since_same. intros []. }
  rewrite (transactionalMethod_valid env pretty _ _ db transaction args s Hdb Hfind).
  unfold acquire, attempt, recover.
  destruct (found_transaction _ _ Hfind) as [[Ht _] | [-> _]].
  - rewrite Ht. unfold_body.
    every_case; read_trace; cbn [In]; intuition discriminate.
  - unfold_body.
    every_case; read_trace; cbn [In]; intros H;
      repeat match type of H with
             | _ \/ _ => destruct H as [H|H]
             | False => contradiction
             | _ = _ => try discriminate H; injection H as <-
             end;
      (split; [reflexivity|]);
      match goal with
      | Hfin : negb (truthy _) = true |- _ => apply negb_true_iff in Hfin
      end;
      eauto 10.
Qed.

(** X4.  The wrapper only ever rolls back a transaction it has created
    itself, and only when no error handler was given. *)
Theorem rollback_only_own_transaction_without_error_handler
    (handler errorHandler db t : value) (args : list value) (s : state World) :
  isSequelize db = Yields true ->
  In (EvRollback t)
     (events_since s (snd (transactionalMethod env pretty handler errorHandler (db :: args) s))) ->
  truthy errorHandler = false
  /\ JS.find isTransaction args = Yields VUndefined
  /\ exists tx w1,
       db_transaction env db (world s) = (Returned tx, w1) /\ t = VObject tx.
Proof.
  intros Hdb.
  destruct (JS.find isTransaction args) as [transaction|] eqn:Hfind.
  2:{ rewrite (run_type_error_valid env pretty _ _ db args s Hdb Hfind).
      cbn [snd]. rewrite events_since_same. intros []. }
  rewrite (transactionalMethod_valid env pretty _ _ db transaction args s Hdb Hfind).
  unfold acquire, attempt, recover.
  destruct (found_transaction _ _ Hfind) as [[Ht _] | [-> _]].
  - rewrite Ht. unfold_body.
    every_case; read_trace; cbn [In]; intuition discriminate.
  - unfold_body.
    every_case; read_trace; cbn [In]; intros H;
      repeat match type of H with
             | _ \/ _ => destruct H as [H|H]
             | False => contradiction
             | _ = _ => try discriminate H; injection H as <-
             end;
      eauto 10.
Qed.

(** X5.  No call makes a collaborator work twice: at most one
    [db.transaction()], one [commit] and one [rollback], and at most two
    function calls (the handler and the error handler), only one when no
    error handler was given. *)
Theorem every_collaborator_at_most_once
    (handler errorHandler : value) (params : list value) (s : state World) :
  let events :=
    events_since s (snd (transactionalMethod env pretty handler errorHandler params s)) in
  List.length (filter is_creation events) <= 1
  /\ List.length (filter is_commit events) <= 1
  /\ List.length (filter is_rollback events) <= 1
  /\ List.length (filter is_call events) <= 2
  /\ (truthy errorHandler = false -> List.length (filter is_call events) <= 1).
Proof.
  intros events. subst events.
  destruct (run_cases env pretty params s)
    as [H | [H | (db & args & transaction & -> & Hdb & Hfind)]].
  - rewrite H. cbn [snd]. rewrite events_since_same. cbn.
    repeat split; repeat constructor.
  - rewrite H. cbn [snd]. rewrite events_since_same. cbn.
    repeat split; repeat constructor.
  - rewrite (transactionalMethod_valid env pretty _ _ db transaction args s Hdb Hfind).
    unfold acquire, attempt, recover. unfold_body.
    destruct (truthy errorHandler) eqn:Heh; every_case; read_trace;
      cbn [filter is_call List.length];
      repeat split; try discriminate; repeat constructor.
Qed.

(** X6.  An error handler changes nothing in a call that goes well: when
    the method built without error handler resolves, the method built with
    any error handler resolves in the same way, with the same calls made and
    the same world left. *)
Theorem error_handler_idle_on_success
    (handler errorHandler v : value) (params : list value) (s s' : state World) :
  transactionalMethod env pretty handler VUndefined params s = (Resolved v, s') ->
  transactionalMethod env pretty handler errorHandler params s = (Resolved v, s').
Proof.
  destruct (run_cases env pretty params s)
    as [H | [H | (db & args & transaction & -> & Hdb & Hfind)]].
  - rewrite !H. discriminate.
  - rewrite !H. discriminate.
  - rewrite !(transactionalMethod_valid env pretty _ _ db transaction args s Hdb Hfind).
    unfold acquire, attempt, recover. unfold_body.
    every_case; intros H; try discriminate H; exact H.
Qed.


(** X8.  A parameter that is no object, put where the transaction would
    stand (an [undefined] or [null] placeholder, say), is no transaction to
    the wrapper and is not dropped either: when no transaction is found
    behind it, one is created and the handler is called, in the world
    [db.transaction()] has left, with the database, that transaction, the
    placeholder, and then the parameters that follow. *)
Theorem placeholder_is_forwarded
    (handler errorHandler db p : value) (rest : list value) (tx : object)
    (s : state World) (w1 : World) :
  isSequelize db = Yields true ->
  (forall o, p <> VObject o) ->
  JS.find isTransaction rest = Yields VUndefined ->
  db_transaction env db (world s) = (Returned tx, w1) ->
  HandlerCalledWith env handler errorHandler db VUndefined (VObject tx)
    (db :: VObject tx :: p :: handlerParams rest db (VObject tx))
    (St w1 (trace s ++ [EvTransaction db]))
    (transactionalMethod env pretty handler errorHandler (db :: p :: rest) s).
Proof.
  intros Hdb Hp Hrest Hcreate.
  assert (Hargs : JS.find isTransaction (p :: rest) = Yields VUndefined).
  { now rewrite (find_later isTransaction p rest (isTransaction_not_object p Hp)). }
  assert (Hacq : acquire env db VUndefined s
                 = (Returned (VObject tx), St w1 (trace s ++ [EvTransaction db]))).
  { now rewrite acquire_local, Hcreate. }
  assert (Hparams : handlerParams (db :: p :: rest) db (VObject tx)
                    = p :: handlerParams rest db (VObject tx)).
  { destruct (isSequelize_object db Hdb) as [d ->].
    unfold handlerParams, strict_neq. cbn [filter].
    rewrite (strict_eq_not_object p d Hp), (strict_eq_not_object p tx Hp).
    cbn [strict_eq]. now rewrite object_eqb_refl. }
  rewrite <- Hparams.
  exact (run_branches env pretty handler errorHandler db VUndefined (VObject tx)
           (p :: rest) s _ Hdb Hargs Hacq).
Qed.

(** X9.  With the README's error handler, a failure of the handler on a
    transaction of the wrapper's own does not reach the caller: the error
    handler rolls the transaction back unless it is finished, returns
    nothing, and the call resolves with [undefined] (where the method built
    without error handler is rejected with the handler's error).  Only a
    failing rollback rejects the call, with the rollback's failure. *)
Theorem readme_error_handler_swallows_the_error
    (handler errorHandler db e : value) (args : list value) (tx : object)
    (s : state World) (w1 w2 : World) :
  isSequelize db = Yields true ->
  JS.find isTransaction args = Yields VUndefined ->
  instanceof_Function errorHandler = true ->
  db_transaction env db (world s) = (Returned tx, w1) ->
  call env handler (db :: VObject tx :: handlerParams (db :: args) db (VObject tx)) w1
    = (Threw e, w2) ->
  call env errorHandler [e; db; VObject tx; VUndefined] w2
    = readme_errorHandler env e db (VObject tx) VUndefined w2 ->
  let run := transactionalMethod env pretty handler errorHandler (db :: args) s in
  let calls :=
    (trace s ++
       [EvTransaction db;
        EvCall handler (db :: VObject tx :: handlerParams (db :: args) db (VObject tx));
        EvCall errorHandler [e; db; VObject tx; VUndefined]])%list in
  (truthy (finished env (VObject tx) w2) = true ->
     run = (Resolved VUndefined, St w2 calls))
  /\ (truthy (finished env (VObject tx) w2) = false ->
      forall r w3, rollback env (VObject tx) w2 = (Returned r, w3) ->
      run = (Resolved VUndefined, St w3 calls))
  /\ (truthy (finished env (VObject tx) w2) = false ->
      forall er w3, rollback env (VObject tx) w2 = (Threw er, w3) ->
      run = (Rejected er, St w3 calls)).
Proof.
  intros Hdb Hargs Heh Hcreate Hcall Hreadme run calls. subst run calls.
  rewrite (run_local env pretty handler errorHandler db args tx s w1 Hdb Hargs Hcreate).
  unfold try_catch, attempt, recover.
  rewrite (instanceof_Function_truthy _ Heh).
  unfold_body. rewrite Hcall. tidy. rewrite Hreadme.
  unfold readme_errorHandler. cbn [truthy negb andb].
  repeat split.
  - intros ->. reflexivity.
  - intros -> r w3 ->. reflexivity.
  - intros -> er w3 ->. reflexivity.
Qed.

(** With a transaction among the parameters, all a call adds to the trace
    is function calls. *)
Lemma supplied_run_trace (handler errorHandler db tx : value) (args : list value)
    (s : state World) :
  isSequelize db = Yields true ->
  JS.find isTransaction args = Yields tx ->
  isTransaction tx = Yields true ->
  exists calls,
    trace (snd (transactionalMethod env pretty handler errorHandler (db :: args) s))
    = (trace s ++ calls)%list
    /\ filter is_creation calls = []
    /\ filter is_commit calls = []
    /\ filter is_rollback calls = [].
Proof.
  intros Hdb Hfind Htx.
  rewrite (run_supplied env pretty handler errorHandler db tx args s Hdb Hfind Htx).
  unfold try_catch, attempt, recover.
  rewrite (isTransaction_truthy _ Htx).
  unfold_body.
  every_case; cbn [snd trace]; eexists; (split; [reflexivity|]); auto.
Qed.

(** X10.  Two methods called one after the other on the same transaction
    (the batch of the README) leave that transaction to the caller: however
    the two calls settle, and whatever error handlers the methods have,
    the wrapper has created, committed and rolled back nothing. *)
Theorem batch_leaves_the_transaction_alone
    (handler1 errorHandler1 handler2 errorHandler2 db tx : value)
    (args1 args2 : list value) (s : state World) :
  isSequelize db = Yields true ->
  isTransaction tx = Yields true ->
  JS.find isTransaction args1 = Yields tx ->
  JS.find isTransaction args2 = Yields tx ->
  let s1 := snd (transactionalMethod env pretty handler1 errorHandler1 (db :: args1) s) in
  let s2 := snd (transactionalMethod env pretty handler2 errorHandler2 (db :: args2) s1) in
  filter is_creation (events_since s s2) = []
  /\ filter is_commit (events_since s s2) = []
  /\ filter is_rollback (events_since s s2) = [].
Proof.
  intros Hdb Htx Hfind1 Hfind2 s1 s2.
  destruct (supplied_run_trace handler1 errorHandler1 db tx args1 s Hdb Hfind1 Htx)
    as (calls1 & Htrace1 & Hc1 & Hm1 & Hr1).
  destruct (supplied_run_trace handler2 errorHandler2 db tx args2 s1 Hdb Hfind2 Htx)
    as (calls2 & Htrace2 & Hc2 & Hm2 & Hr2).
  fold s1 in Htrace1. fold s2 in Htrace2.
  rewrite (events_since_app s s2 (calls1 ++ calls2)).
  - rewrite !filter_app, Hc1, Hc2, Hm1, Hm2, Hr1, Hr2. auto.
  - now rewrite Htrace2, Htrace1, app_assoc.
Qed.

(** X11.  The generator gives a method away only after both checks: if it
    returns one, the handler is a function, the error handler is absent or
    a function, nothing else has happened, and the method is the wrapper
    of these two.  For such a method the test [if (errorHandler)] of the
    [catch] block asks exactly whether an error handler was given. *)
Theorem generator_returns_only_validated
    (handler errorHandler : value) (s s' : state World)
    (method : list value -> state World -> settled * state World) :
  sequelizeTransactionalMethodGenerator env pretty handler errorHandler s
    = (ReturnsMethod method, s') ->
  instanceof_Function handler = true
  /\ (errorHandler = VUndefined \/ instanceof_Function errorHandler = true)
  /\ truthy errorHandler = negb (strict_eq errorHandler VUndefined)
  /\ method = transactionalMethod env pretty handler errorHandler
  /\ s' = s.
Proof.
  unfold sequelizeTransactionalMethodGenerator.
  destruct (instanceof_Function handler) eqn:Hh; cbn [negb]; [|discriminate].
  destruct (String.eqb (typeof errorHandler) "undefined") eqn:Hty; cbn [negb andb].
  - apply typeof_undefined in Hty. subst errorHandler.
    intros [= <- <-]. auto.
  - destruct (instanceof_Function errorHandler) eqn:Heh; cbn [negb]; [|discriminate].
    intros [= <- <-].
    destruct errorHandler; try discriminate Heh. auto.
Qed.

(** X12.  An instance of [Object] whose constructor is [null] or
    [undefined], standing before any transaction among the parameters,
    makes every call end in the TypeError of the wrapper's own test,
    whatever the first parameter is: nothing is called and the world is
    untouched. *)
Theorem null_constructor_rejects_with_type_error
    (handler errorHandler : value) (before after : list value) (o : object)
    (s : state World) :
  inherits_Object o = true ->
  constructor_name o = NoConstructor ->
  Forall (fun p => isTransaction p = Yields false) before ->
  transactionalMethod env pretty handler errorHandler (before ++ VObject o :: after) s
  = (RejectedTypeError, s).
Proof.
  intros Hi Hc Hbefore. apply run_type_error. right.
  apply find_throws; [exact Hbefore|].
  apply isTransaction_throws. now exists o.
Qed.

(** X13.  The transaction is the first parameter that passes the
    Transaction test, wherever it stands after the database, provided the
    parameters before it fail that test without making it throw.  And once
    the working transaction [wt] is there, the handler is called with the
    database, [wt], and then the parameters that are neither of the two, in
    the order they were given; what it answers to these arguments decides
    how the call goes on. *)
Theorem handler_receives_remaining_params
    (handler errorHandler db transaction wt : value) (args : list value)
    (s s1 : state World) :
  isSequelize db = Yields true ->
  JS.find isTransaction args = Yields transaction ->
  acquire env db transaction s = (Returned wt, s1) ->
  (forall before tx after,
      args = (before ++ tx :: after)%list ->
      Forall (fun p => isTransaction p = Yields false) before ->
      isTransaction tx = Yields true ->
      transaction = tx /\ wt = tx /\ s1 = s)
  /\ exists rest,
       Remaining db wt (db :: args) rest
       /\ HandlerCalledWith env handler errorHandler db transaction wt
            (db :: wt :: rest) s1
            (transactionalMethod env pretty handler errorHandler (db :: args) s).
Proof.
  intros Hdb Hfind Hacq. split.
  - intros before tx after -> Hbefore Htx.
    rewrite (find_skips _ before after tx Hbefore Htx) in Hfind.
    injection Hfind as <-.
    rewrite (acquire_supplied env db tx s (isTransaction_truthy _ Htx)) in Hacq.
    now injection Hacq as <- <-.
  - exists (handlerParams (db :: args) db wt).
    split; [apply handlerParams_Remaining|].
    exact (run_branches env pretty handler errorHandler db transaction wt args s s1
             Hdb Hfind Hacq).
Qed.

End Further.

(** ** The further properties at work on the scripted database *)

Lemma first_parameter_must_be_sequelize_witness :
  Mock.run Mock.happy Mock.handler VUndefined [VString "data"; Mock.db]
  = (RejectedNewError
       "Expected the first parameter to be a Sequelize instance, but instead received: (string) 'data'",
     Mock.start).
Proof.
  apply (first_parameter_must_be_sequelize
           (Mock.env Mock.happy) Mock.pretty
           Mock.handler VUndefined Mock.db VUndefined [VString "data"; Mock.db] Mock.start);
    reflexivity.
Defined.

Lemma creation_exactly_when_no_transaction_witness :
  filter is_creation
    (events_since Mock.start
       (snd (Mock.run Mock.handler_breaks Mock.handler VUndefined [Mock.db; VString "data"])))
  = [EvTransaction Mock.db]
  /\ filter is_creation
       (events_since Mock.start
          (snd (Mock.run Mock.handler_breaks Mock.handler VUndefined
                  [Mock.db; VString "data"; Mock.supplied])))
     = []
  /\ Mock.run Mock.creation_breaks Mock.handler VUndefined [Mock.db; VString "data"]
     = (Rejected Mock.connection_refused, St None [EvTransaction Mock.db]).
Proof.
  split; [|split].
  - apply (proj1 (creation_exactly_when_no_transaction
             (Mock.env Mock.handler_breaks) Mock.pretty Mock.handler VUndefined Mock.db
             VUndefined [VString "data"] Mock.start eq_refl eq_refl)).
  - apply (proj1 (creation_exactly_when_no_transaction
             (Mock.env Mock.handler_breaks) Mock.pretty Mock.handler VUndefined Mock.db
             Mock.supplied [VString "data"; Mock.supplied] Mock.start eq_refl eq_refl)).
  - apply (proj2 (creation_exactly_when_no_transaction
             (Mock.env Mock.creation_breaks) Mock.pretty Mock.handler VUndefined Mock.db
             VUndefined [VString "data"] Mock.start eq_refl eq_refl)
             eq_refl Mock.connection_refused None).
    reflexivity.
Defined.

Lemma commit_only_own_unfinished_transaction_witness :
  JS.find isTransaction [VString "data"] = Yields VUndefined
  /\ exists tx w1 v w2,
       db_transaction (Mock.env Mock.happy) Mock.db None = (Returned tx, w1)
       /\ VObject Mock.created = VObject tx
       /\ call (Mock.env Mock.happy) Mock.handler
            (Mock.db :: VObject Mock.created
               :: handlerParams [Mock.db; VString "data"] Mock.db (VObject Mock.created))
            w1 = (Returned v, w2)
       /\ truthy (finished (Mock.env Mock.happy) (VObject Mock.created) w2) = false.
Proof.
  apply (commit_only_own_unfinished_transaction
           (Mock.env Mock.happy) Mock.pretty Mock.handler VUndefined Mock.db
           (VObject Mock.created) [VString "data"] Mock.start).
  - reflexivity.
  - vm_compute. auto.
Defined.

Lemma rollback_only_own_transaction_without_error_handler_witness :
  truthy VUndefined = false
  /\ JS.find isTransaction [VString "data"] = Yields VUndefined
  /\ exists tx w1,
       db_transaction (Mock.env Mock.handler_breaks) Mock.db None = (Returned tx, w1)
       /\ VObject Mock.created = VObject tx.
Proof.
  apply (rollback_only_own_transaction_without_error_handler
           (Mock.env Mock.handler_breaks) Mock.pretty Mock.handler VUndefined Mock.db
           (VObject Mock.created) [VString "data"] Mock.start).
  - reflexivity.
  - vm_compute. auto.
Defined.

Lemma every_collaborator_at_most_once_witness :
  let events :=
    events_since Mock.start
      (snd (Mock.run Mock.commit_breaks Mock.handler VUndefined [Mock.db])) in
  List.length (filter is_creation events) <= 1
  /\ List.length (filter is_commit events) <= 1
  /\ List.length (filter is_rollback events) <= 1
  /\ List.length (filter is_call events) <= 2
  /\ (truthy VUndefined = false -> List.length (filter is_call events) <= 1).
Proof.
  exact (every_collaborator_at_most_once
           (Mock.env Mock.commit_breaks) Mock.pretty Mock.handler VUndefined
           [Mock.db] Mock.start).
Defined.

Lemma error_handler_idle_on_success_witness :
  Mock.run Mock.happy Mock.handler Mock.errorHandler [Mock.db; VString "data"]
  = (Resolved (VString "ok"),
     St (Some "commit")
        [EvTransaction Mock.db;
         EvCall Mock.handler [Mock.db; VObject Mock.created; VString "data"];
         EvCommit (VObject Mock.created)]).
Proof.
  apply (error_handler_idle_on_success
           (Mock.env Mock.happy) Mock.pretty Mock.handler Mock.errorHandler).
  reflexivity.
Defined.


Lemma placeholder_is_forwarded_witness :
  Mock.run Mock.happy Mock.handler VUndefined [Mock.db; VUndefined; VString "data"]
  = (Resolved (VString "ok"),
     St (Some "commit")
        [EvTransaction Mock.db;
         EvCall Mock.handler [Mock.db; VObject Mock.created; VUndefined; VString "data"];
         EvCommit (VObject Mock.created)]).
Proof.
  assert (H : forall o, VUndefined <> VObject o) by discriminate.
  apply (proj2 (proj1 (placeholder_is_forwarded
           (Mock.env Mock.happy) Mock.pretty Mock.handler VUndefined Mock.db VUndefined
           [VString "data"] Mock.created Mock.start None eq_refl H eq_refl eq_refl)
           (VString "ok") None eq_refl)
         eq_refl eq_refl VUndefined (Some "commit")).
  reflexivity.
Defined.

Lemma readme_error_handler_swallows_the_error_witness :
  MockReadme.run Mock.handler_breaks Mock.handler Mock.errorHandler
    [Mock.db; VString "data"]
  = (Resolved VUndefined,
     St (Some "rollback")
        [EvTransaction Mock.db;
         EvCall Mock.handler [Mock.db; VObject Mock.created; VString "data"];
         EvCall Mock.errorHandler [Mock.boom; Mock.db; VObject Mock.created; VUndefined]]).
Proof.
  apply (proj1 (proj2 (readme_error_handler_swallows_the_error
           (MockReadme.env Mock.handler_breaks) Mock.pretty
           Mock.handler Mock.errorHandler Mock.db Mock.boom [VString "data"]
           Mock.created Mock.start None None
           eq_refl eq_refl eq_refl eq_refl eq_refl eq_refl))
         eq_refl VUndefined (Some "rollback")).
  reflexivity.
Defined.

Lemma batch_leaves_the_transaction_alone_witness :
  let s1 := snd (Mock.run Mock.handler_breaks Mock.handler Mock.errorHandler
                   [Mock.db; VString "first"; Mock.supplied]) in
  let s2 := snd (transactionalMethod (Mock.env Mock.handler_breaks) Mock.pretty
                   Mock.handler VUndefined [Mock.db; VString "second"; Mock.supplied] s1) in
  filter is_creation (events_since Mock.start s2) = []
  /\ filter is_commit (events_since Mock.start s2) = []
  /\ filter is_rollback (events_since Mock.start s2) = [].
Proof.
  apply (batch_leaves_the_transaction_alone
           (Mock.env Mock.handler_breaks) Mock.pretty
           Mock.handler Mock.errorHandler Mock.handler VUndefined Mock.db Mock.supplied
           [VString "first"; Mock.supplied] [VString "second"; Mock.supplied] Mock.start);
    reflexivity.
Defined.

Lemma generator_returns_only_validated_witness :
  instanceof_Function Mock.handler = true
  /\ (Mock.errorHandler = VUndefined \/ instanceof_Function Mock.errorHandler = true)
  /\ truthy Mock.errorHandler = negb (strict_eq Mock.errorHandler VUndefined)
  /\ transactionalMethod (Mock.env Mock.happy) Mock.pretty Mock.handler Mock.errorHandler
     = transactionalMethod (Mock.env Mock.happy) Mock.pretty Mock.handler Mock.errorHandler
  /\ Mock.start = Mock.start.
Proof.
  apply (generator_returns_only_validated
           (Mock.env Mock.happy) Mock.pretty Mock.handler Mock.errorHandler
           Mock.start Mock.start).
  reflexivity.
Defined.

Lemma null_constructor_rejects_with_type_error_witness :
  Mock.run Mock.happy Mock.handler VUndefined
    [Mock.db; VString "data"; Mock.null_constructor; Mock.supplied]
  = (RejectedTypeError, Mock.start).
Proof.
  apply (null_constructor_rejects_with_type_error
           (Mock.env Mock.happy) Mock.pretty Mock.handler VUndefined
           [Mock.db; VString "data"] [Mock.supplied]
           (Obj 30 false true false NoConstructor) Mock.start);
    [reflexivity | reflexivity | ].
  repeat constructor.
Defined.

Lemma handler_receives_remaining_params_witness :
  (exists rest,
      Remaining Mock.db Mock.supplied
        [Mock.db; VString "a"; VNumber 1; Mock.supplied; Mock.db; VString "b"] rest)
  /\ Mock.run Mock.handler_breaks Mock.handler VUndefined
       [Mock.db; VString "a"; VNumber 1; Mock.supplied; Mock.db; VString "b"]
     = (Rejected Mock.boom,
        St None
           [EvCall Mock.handler
              [Mock.db; Mock.supplied; VString "a"; VNumber 1; VString "b"]]).
Proof.
  destruct (handler_receives_remaining_params
              (Mock.env Mock.handler_breaks) Mock.pretty
              Mock.handler VUndefined Mock.db Mock.supplied Mock.supplied
              [VString "a"; VNumber 1; Mock.supplied; Mock.db; VString "b"]
              Mock.start Mock.start eq_refl eq_refl eq_refl)
    as (_ & rest & Hrest & Hcalled).
  split; [now exists rest|].
  assert (Hlist : rest = [VString "a"; VNumber 1; VString "b"]).
  { apply (Remaining_functional _ _ _ _ _ Hrest).
    apply Remaining_db; [reflexivity|].
    apply Remaining_other; [reflexivity | reflexivity |].
    apply Remaining_other; [reflexivity | reflexivity |].
    apply Remaining_wt; [reflexivity|].
    apply Remaining_db; [reflexivity|].
    apply Remaining_other; [reflexivity | reflexivity |].
    apply Remaining_nil. }
  subst rest.
  apply (proj1 (proj2 (proj2 Hcalled Mock.boom None eq_refl)) eq_refl eq_refl).
Defined.
